(** * Job Handlers of job-bucket-server

    A shallow embedding of [src/controllers/job-controller.js]: the six
    request handlers over the Job collection and the session-cookie helper.
    JavaScript values are an inductive type with the language's truthiness,
    a request body is a finite map from property names to values, the
    collection is a list of documents threaded through every handler, and
    an [await] that can reject is a step of a small state-and-error monad. *)

From Stdlib Require Import ZArith NArith String List Bool Lia.
From stdpp Require Import base option gmap strings list.
Import ListNotations.

Local Open Scope string_scope.
Local Open Scope Z_scope.

(** ** JavaScript values *)

(** A JavaScript number: a finite value or NaN.  Finite values are kept as
    integers: the handlers only test a number for zero, and the cookie
    helper only adds and multiplies. *)
Inductive JsNum : Type :=
| Num (z : Z)
| NaN.

(** The values a parsed JSON body, an environment lookup or a cookie option
    can hold.  [JsDate t] is a Date object with time value [t]; a NaN time
    value is an Invalid Date. *)
Inductive JsValue : Type :=
| JsUndefined
| JsNull
| JsBool (b : bool)
| JsNumber (n : JsNum)
| JsString (s : string)
| JsDate (t : JsNum).

#[global] Instance JsNum_eq_dec : EqDecision JsNum.
Proof. solve_decision. Defined.

#[global] Instance JsValue_eq_dec : EqDecision JsValue.
Proof. solve_decision. Defined.

(** ToBoolean: what [!v] and [if (v)] look at. *)
Definition truthy (v : JsValue) : bool :=
  match v with
  | JsUndefined | JsNull => false
  | JsBool b => b
  | JsNumber (Num z) => negb (z =? 0)
  | JsNumber NaN => false
  | JsString s => negb (String.eqb s "")
  | JsDate _ => true
  end.

(** Number arithmetic with NaN propagation. *)
Definition num_add (a b : JsNum) : JsNum :=
  match a, b with
  | Num x, Num y => Num (x + y)
  | _, _ => NaN
  end.

Definition num_mul (a b : JsNum) : JsNum :=
  match a, b with
  | Num x, Num y => Num (x * y)
  | _, _ => NaN
  end.

(** Decimal digits of a numeric string, most significant first. *)
Fixpoint digits_value (acc : Z) (s : string) : option Z :=
  match s with
  | EmptyString => Some acc
  | String c rest =>
      let n := Z.of_nat (Ascii.nat_of_ascii c) in
      if (48 <=? n) && (n <=? 57)
      then digits_value (10 * acc + (n - 48)) rest
      else None
  end.

(** ToNumber, as the [*] operator applies it to its operands.  Strings are
    read as unsigned decimal integers (the form an environment variable
    counting days has); the empty string is 0. *)
Definition toNumber (v : JsValue) : JsNum :=
  match v with
  | JsUndefined => NaN
  | JsNull => Num 0
  | JsBool b => Num (if b then 1 else 0)
  | JsNumber n => n
  | JsString s => match digits_value 0 s with Some z => Num z | None => NaN end
  | JsDate t => t
  end.

(** Reading a property of a plain object: a missing key reads as
    [undefined], as in the destructuring [const { title, ... } = req.body]. *)
Definition prop (o : gmap string JsValue) (k : string) : JsValue :=
  default JsUndefined (o !! k).

(** ** Users, job documents and the collection *)

(** A storage key (an ObjectId), as a number. *)
Definition ObjectId : Type := N.

(** The authenticated user the authentication layer attaches to a request. *)
Record User : Type := mkUser {
  _id : ObjectId;
  role : string
}.

(** The nine payload fields of a job, with [JsUndefined] for a field that
    is absent.  The same shape serves as the filter of [Job.findOne] and as
    the payload of [Job.create]. *)
Record JobFields : Type := mkJobFields {
  title : JsValue;
  description : JsValue;
  category : JsValue;
  country : JsValue;
  city : JsValue;
  location : JsValue;
  fixedSalary : JsValue;
  salaryFrom : JsValue;
  salaryTo : JsValue
}.

#[global] Instance JobFields_eq_dec : EqDecision JobFields.
Proof. solve_decision. Defined.

(** Modelled from the spec: the Job document of [models/job-model.js], which
    is not among the sources.  The spec's data model lists the nine payload
    fields, [postedBy] (the posting user's identifier) and [expired]
    (boolean, default false); the creation timestamp plays no part in any
    handler and is left out. *)
Record Job : Type := mkJob {
  job_id : ObjectId;
  fields : JobFields;
  postedBy : ObjectId;
  expired : bool
}.

#[global] Instance Job_eq_dec : EqDecision Job.
Proof. solve_decision. Defined.

(** The Job collection: its documents in insertion order and the counter
    the next storage key is drawn from. *)
Record Collection : Type := mkCollection {
  docs : list Job;
  nextId : ObjectId
}.

(** ** Rejections and the [await] monad *)

(** What a storage operation can throw: a value that does not cast to the
    type of its path, or a document the schema refuses. *)
Inductive Thrown : Type :=
| CastError (value : JsValue) (path : string)
| ValidationError.

Inductive Result (A : Type) : Type :=
| Ok (a : A)
| Throw (e : Thrown).
Arguments Ok {A} a.
Arguments Throw {A} e.

(** An asynchronous computation over the collection: it ends in a value or
    in a rejection, and leaves the collection in a new state. *)
Definition Async (A : Type) : Type := Collection -> Collection * Result A.

Definition resolve {A : Type} (a : A) : Async A :=
  fun db => (db, Ok a).

Definition reject {A : Type} (e : Thrown) : Async A :=
  fun db => (db, Throw e).

Definition await {A B : Type} (c : Async A) (k : A -> Async B) : Async B :=
  fun db =>
    match c db with
    | (db', Ok a) => k a db'
    | (db', Throw e) => (db', Throw e)
    end.

(** [try { c } catch (error) { h error }] *)
Definition tryCatch {A : Type} (c : Async A) (h : Thrown -> Async A) : Async A :=
  fun db =>
    match c db with
    | (db', Ok a) => (db', Ok a)
    | (db', Throw e) => h e db'
    end.

Notation "'const' x '<-' 'await' c ';;' k" := (await c (fun x => k))
  (at level 10, x name, c at level 99, k at level 200).

(** ** Requests, responses and errors *)

Record Request : Type := mkRequest {
  user : User;
  body : gmap string JsValue;
  params_id : string
}.

(** The JSON envelopes the handlers send, one constructor per shape. *)
Inductive Json : Type :=
| JobsJson (success : bool) (jobs : list Job)
| PostJson (success : bool) (message : string) (post : Job)
| MyJobsJson (success : bool) (myJobs : list Job)
| UpdatedJson (success : bool) (post : option Job) (message : string)
| DeletedJson (success : bool) (message : string)
| JobJson (success : bool) (job : Job)
| TokenJson (success : bool) (user : User) (message : string) (token : string).

(** One call of [res.cookie(name, value, options)], options as passed. *)
Record Cookie : Type := mkCookie {
  cookie_name : string;
  cookie_value : string;
  cookie_options : gmap string JsValue
}.

(** The outgoing response after [res.status(..)], [res.cookie(..)] and
    [res.json(..)]. *)
Record Response : Type := mkResponse {
  status : Z;
  cookies : list Cookie;
  json : Json
}.

(** Modelled from the spec: the error object of
    [middlewares/error-middleware.js], which is not among the sources: "a
    single error-reporting convention carrying a message and an HTTP status
    code".  [statusCode] is [None] when the constructor is called with the
    message alone. *)
Record ErrorHandler : Type := mkErrorHandler {
  message : string;
  statusCode : option Z
}.

(** How a handler ends: it sent a response, it handed an [ErrorHandler] to
    [next], or a rejection reached [next]. *)
Inductive Outcome : Type :=
| Sent (res : Response)
| Next (err : ErrorHandler)
| NextThrown (e : Thrown).

(** Modelled from the spec: the wrapper of
    [middlewares/async-error-middleware.js], which is not among the sources:
    "failures propagate as rejected operations to the error-handling layer". *)
Definition catchAsyncError (h : Request -> Async Outcome)
  (req : Request) (db : Collection) : Collection * Outcome :=
  match h req db with
  | (db', Ok o) => (db', o)
  | (db', Throw e) => (db', NextThrown e)
  end.

(** ** The persistence layer *)

(** The query objects the handlers build: [{ expired: b }],
    [{ postedBy: u }] and the nine-field filter of the duplicate check. *)
Inductive Filter : Type :=
| ByExpired (b : bool)
| ByPostedBy (u : ObjectId)
| ByFields (q : JobFields).

(** Modelled from the spec: a document matches a filter when the named
    fields are equal to the filter's values ("an exact-match existence
    check across all job fields"). *)
Definition matches (f : Filter) (j : Job) : bool :=
  match f with
  | ByExpired b => Bool.eqb (expired j) b
  | ByPostedBy u => (postedBy j =? u)%N
  | ByFields q => bool_decide (fields j = q)
  end.

(** The document with a given storage key, replaced or removed at its
    first occurrence. *)
Definition hasId (oid : ObjectId) (j : Job) : bool := (job_id j =? oid)%N.

Fixpoint replaceFirst (oid : ObjectId) (j' : Job) (l : list Job) : list Job :=
  match l with
  | [] => []
  | j :: rest => if hasId oid j then j' :: rest else j :: replaceFirst oid j' rest
  end.

Fixpoint removeFirst (oid : ObjectId) (l : list Job) : list Job :=
  match l with
  | [] => []
  | j :: rest => if hasId oid j then rest else j :: removeFirst oid rest
  end.

(** A field of a partial update: the body's value when the key is there. *)
Definition updated (o : gmap string JsValue) (k : string) (old : JsValue) : JsValue :=
  match o !! k with
  | Some v => v
  | None => old
  end.

Section Persistence.

(** The storage layer's key format: the identifiers that cast to a key. *)
Variable castObjectId : string -> option ObjectId.

(** The validators of the Job schema, which [models/job-model.js] declares
    and the sources do not include. *)
Variable schemaAccepts : Job -> bool.

(** Modelled from the spec: [Job.find], the first of the persistence
    layer's "find/findOne/create/findById/findByIdAndUpdate/deleteOne-style
    operations" over the Job collection: all documents matching a filter. *)
Definition Job_find (f : Filter) : Async (list Job) :=
  fun db => (db, Ok (List.filter (matches f) (docs db))).

(** Modelled from the spec: [Job.findOne], the first matching document or
    null. *)
Definition Job_findOne (f : Filter) : Async (option Job) :=
  fun db => (db, Ok (List.find (matches f) (docs db))).

(** Modelled from the spec: [Job.create] "sets postedBy to the caller's
    identifier and persists; returns the created record".  The new document
    takes the next storage key and [expired = false]; a document the schema
    refuses is not stored and the call rejects. *)
Definition Job_create (payload : JobFields) (by_ : ObjectId) : Async Job :=
  fun db =>
    let doc := mkJob (nextId db) payload by_ false in
    if schemaAccepts doc
    then (mkCollection (docs db ++ [doc]) (N.succ (nextId db)), Ok doc)
    else (db, Throw ValidationError).

(** Modelled from the spec: [Job.findById] "looks up by id"; an identifier
    "malformed for the storage layer's key format" makes it throw. *)
Definition Job_findById (id : string) : Async (option Job) :=
  fun db =>
    match castObjectId id with
    | None => (db, Throw (CastError (JsString id) "_id"))
    | Some oid => (db, Ok (List.find (hasId oid) (docs db)))
    end.

(** The casts of the two paths of a partial update that are not payload
    fields. *)
Definition castExpired (o : gmap string JsValue) (old : bool) : Result bool :=
  match o !! "expired" with
  | None => Ok old
  | Some (JsBool b) => Ok b
  | Some v => Throw (CastError v "expired")
  end.

Definition castPostedBy (o : gmap string JsValue) (old : ObjectId) : Result ObjectId :=
  match o !! "postedBy" with
  | None => Ok old
  | Some (JsString s) =>
      match castObjectId s with
      | Some oid => Ok oid
      | None => Throw (CastError (JsString s) "postedBy")
      end
  | Some v => Throw (CastError v "postedBy")
  end.

(** The document a partial update leads to: every schema path the body
    names takes the body's value, the others keep theirs. *)
Definition applyUpdate (o : gmap string JsValue) (j : Job) : Result Job :=
  let f := fields j in
  let f' := mkJobFields
    (updated o "title" (title f)) (updated o "description" (description f))
    (updated o "category" (category f)) (updated o "country" (country f))
    (updated o "city" (city f)) (updated o "location" (location f))
    (updated o "fixedSalary" (fixedSalary f)) (updated o "salaryFrom" (salaryFrom f))
    (updated o "salaryTo" (salaryTo f)) in
  match castPostedBy o (postedBy j) with
  | Throw e => Throw e
  | Ok by_ =>
      match castExpired o (expired j) with
      | Throw e => Throw e
      | Ok ex => Ok (mkJob (job_id j) f' by_ ex)
      end
  end.

(** Modelled from the spec: [Job.findByIdAndUpdate(id, body, { new: true,
    runValidators: true })] "applies a partial update with the request body
    fields and returns the updated record with validation re-applied"; null
    when no document has the key. *)
Definition Job_findByIdAndUpdate (id : string) (o : gmap string JsValue)
  : Async (option Job) :=
  fun db =>
    match castObjectId id with
    | None => (db, Throw (CastError (JsString id) "_id"))
    | Some oid =>
        match List.find (hasId oid) (docs db) with
        | None => (db, Ok None)
        | Some j =>
            match applyUpdate o j with
            | Throw e => (db, Throw e)
            | Ok j' =>
                if schemaAccepts j'
                then (mkCollection (replaceFirst oid j' (docs db)) (nextId db),
                      Ok (Some j'))
                else (db, Throw ValidationError)
            end
        end
    end.

(** Modelled from the spec: [post.deleteOne()] on a document read from the
    collection removes the document with its key. *)
Definition Job_deleteOne (post : Job) : Async unit :=
  fun db => (mkCollection (removeFirst (job_id post) (docs db)) (nextId db), Ok tt).

(** ** The handlers *)

Definition getAllJobs : Request -> Collection -> Collection * Outcome :=
  catchAsyncError (fun req =>
    const jobs <- await Job_find (ByExpired false) ;;
    resolve (Sent (mkResponse 200 [] (JobsJson true jobs)))).

Definition postJob : Request -> Collection -> Collection * Outcome :=
  catchAsyncError (fun req =>
    let role := role (user req) in
    if String.eqb role "Job Seeker" then
      resolve (Next (mkErrorHandler
        "Job Seeker not allowed to access this resource." (Some 400)))
    else
    let title := prop (body req) "title" in
    let description := prop (body req) "description" in
    let category := prop (body req) "category" in
    let country := prop (body req) "country" in
    let city := prop (body req) "city" in
    let location := prop (body req) "location" in
    let fixedSalary := prop (body req) "fixedSalary" in
    let salaryFrom := prop (body req) "salaryFrom" in
    let salaryTo := prop (body req) "salaryTo" in
    if negb (truthy title) || negb (truthy description) || negb (truthy category)
       || negb (truthy country) || negb (truthy city) || negb (truthy location)
    then
      resolve (Next (mkErrorHandler "Please provide full job details." (Some 400)))
    else
    if (negb (truthy salaryFrom) || negb (truthy salaryTo)) && negb (truthy fixedSalary)
    then
      resolve (Next (mkErrorHandler
        "Please either provide fixed salary or ranged salary." (Some 400)))
    else
    if truthy salaryFrom && truthy salaryTo && truthy fixedSalary
    then
      resolve (Next (mkErrorHandler
        "Cannot Enter Fixed and Ranged Salary together." (Some 400)))
    else
    let payload := mkJobFields title description category country city location
                               fixedSalary salaryFrom salaryTo in
    const checkPostExist <- await Job_findOne (ByFields payload) ;;
    match checkPostExist with
    | Some _ => resolve (Next (mkErrorHandler "Job already exist!" None))
    | None =>
        let postedBy := _id (user req) in
        const post <- await Job_create payload postedBy ;;
        resolve (Sent (mkResponse 200 []
          (PostJson true "Job posted successfully!" post)))
    end).

Definition getMyJobs : Request -> Collection -> Collection * Outcome :=
  catchAsyncError (fun req =>
    let role := role (user req) in
    if String.eqb role "Job Seeker" then
      resolve (Next (mkErrorHandler
        "Job Seeker not allowed to access this resource." (Some 400)))
    else
    const myJobs <- await Job_find (ByPostedBy (_id (user req))) ;;
    resolve (Sent (mkResponse 200 [] (MyJobsJson true myJobs)))).

Definition updateJob : Request -> Collection -> Collection * Outcome :=
  catchAsyncError (fun req =>
    let role := role (user req) in
    if String.eqb role "Job Seeker" then
      resolve (Next (mkErrorHandler "Opps Job not found!." (Some 400)))
    else
    let id := params_id req in
    const post <- await Job_findById id ;;
    match post with
    | None =>
        resolve (Next (mkErrorHandler
          "Job Seeker not allowed to access this resource." (Some 400)))
    | Some _ =>
        const post <- await Job_findByIdAndUpdate id (body req) ;;
        resolve (Sent (mkResponse 200 []
          (UpdatedJson true post "Job updated successfully!")))
    end).

Definition deleteJob : Request -> Collection -> Collection * Outcome :=
  catchAsyncError (fun req =>
    let role := role (user req) in
    if String.eqb role "Job Seeker" then
      resolve (Next (mkErrorHandler
        "Job Seeker not allowed to access this resource." (Some 400)))
    else
    let id := params_id req in
    const post <- await Job_findById id ;;
    match post with
    | None => resolve (Next (mkErrorHandler "Opps Job not found!." (Some 400)))
    | Some post =>
        const _done <- await Job_deleteOne post ;;
        resolve (Sent (mkResponse 200 []
          (DeletedJson true "Job deleted successfully!")))
    end).

Definition getSingleJob : Request -> Collection -> Collection * Outcome :=
  catchAsyncError (fun req =>
    let id := params_id req in
    tryCatch
      (const job <- await Job_findById id ;;
       match job with
       | None => resolve (Next (mkErrorHandler "Job not found!" (Some 404)))
       | Some job => resolve (Sent (mkResponse 200 [] (JobJson true job)))
       end)
      (fun error =>
         resolve (Next (mkErrorHandler "Invalid ID / CastError!" (Some 404))))).

End Persistence.

(** ** The session-cookie helper *)

(** The Node [process] object as far as the helper can reach it: its [env]
    property holds the environment variables. *)
Record Process : Type := mkProcess {
  env : gmap string JsValue
}.

(** [process.name]: the value of a member expression on [process].  [env] is
    the one property the model gives the object, and it is an object itself;
    any other name reads as [undefined]. *)
Definition member (process : Process) (name : string)
  : JsValue + gmap string JsValue :=
  if String.eqb name "env" then inr (env process) else inl JsUndefined.

(** ToNumber of the result of a member expression; a plain object is NaN. *)
Definition operandNumber (x : JsValue + gmap string JsValue) : JsNum :=
  match x with
  | inl v => toNumber v
  | inr _ => NaN
  end.

Section SessionCookie.

(** [user.getJWTtoken()]: the token signing of the user model, which the
    sources do not include. *)
Variable getJWTtoken : User -> string.

(** The options object the helper builds.  [now] is the reading of
    [Date.now()]; the number of days is read through the member
    expression [process.envCOOKIE_EXPIRE], as the source spells it, and
    the date is stored under the key [expiresIn]. *)
Definition cookieOptions (process : Process) (now : Z) : gmap string JsValue :=
  {[ "expiresIn" :=
       JsDate (num_add (Num now)
         (num_mul (num_mul (num_mul (num_mul
            (operandNumber (member process "envCOOKIE_EXPIRE"))
            (Num 24)) (Num 60)) (Num 60)) (Num 1000)));
     "httpOnly" := JsBool true ]}.

Definition sendResponseToken (process : Process) (now : Z)
  (user : User) (statusCode : Z) (message : string) : Response :=
  let token := getJWTtoken user in
  let options := cookieOptions process now in
  mkResponse statusCode [mkCookie "token" token options]
    (TokenJson true user message token).

End SessionCookie.

(** The expiration the spec describes, stated from its words for
    comparison with what [cookieOptions] holds: the date [days] days after
    [now]. *)
Definition expiration_spec (days : Z) (now : Z) : JsValue :=
  JsDate (Num (now + days * 24 * 60 * 60 * 1000)).

(** ** Vocabulary of the properties *)

(** The nine fields a create request carries, as [postJob] destructures
    them from the body. *)
Definition requestFields (req : Request) : JobFields :=
  let o := body req in
  mkJobFields (prop o "title") (prop o "description") (prop o "category")
    (prop o "country") (prop o "city") (prop o "location")
    (prop o "fixedSalary") (prop o "salaryFrom") (prop o "salaryTo").

(** All six required text fields are there (and not empty). *)
Definition requiredPresent (f : JobFields) : bool :=
  truthy (title f) && truthy (description f) && truthy (category f)
  && truthy (country f) && truthy (city f) && truthy (location f).

(** The two salary representations.  A field is present when the handler
    sees it, that is, when it is truthy. *)
Definition fixedForm (f : JobFields) : bool := truthy (fixedSalary f).

Definition rangedForm (f : JobFields) : bool :=
  truthy (salaryFrom f) && truthy (salaryTo f).

(** Exactly one representation: the fixed salary alone, or the full range
    with no fixed salary. *)
Definition exactlyOneSalary (f : JobFields) : bool :=
  (fixedForm f && negb (truthy (salaryFrom f)) && negb (truthy (salaryTo f)))
  || (negb (fixedForm f) && rangedForm f).

(** Neither form fully present, and both forms present together. *)
Definition underSpecified (f : JobFields) : bool :=
  negb (fixedForm f) && negb (rangedForm f).

Definition overSpecified (f : JobFields) : bool :=
  fixedForm f && rangedForm f.

(** The other reading of "present": the body gives the field a value,
    whatever the value is.  Both forms are given together when the fixed
    salary and both ends of the range are. *)
Definition supplied (v : JsValue) : bool :=
  negb (bool_decide (v = JsUndefined)).

Definition bothFormsSupplied (f : JobFields) : bool :=
  supplied (fixedSalary f) && supplied (salaryFrom f) && supplied (salaryTo f).

(** ** A concrete storage layer, for running the handlers *)

Definition hexDigit (c : Ascii.ascii) : option N :=
  let n := Ascii.N_of_ascii c in
  if ((48 <=? n) && (n <=? 57))%N then Some (n - 48)%N
  else if ((97 <=? n) && (n <=? 102))%N then Some (n - 87)%N
  else if ((65 <=? n) && (n <=? 70))%N then Some (n - 55)%N
  else None.

Fixpoint hexValue (acc : N) (s : string) : option N :=
  match s with
  | EmptyString => Some acc
  | String c rest =>
      match hexDigit c with
      | Some d => hexValue (16 * acc + d)%N rest
      | None => None
      end
  end.

(** The textual form of an ObjectId: 24 hexadecimal digits. *)
Definition hexObjectId (s : string) : option ObjectId :=
  if (String.length s =? 24)%nat then hexValue 0%N s else None.

Definition isText (v : JsValue) : bool :=
  match v with JsString _ => true | _ => false end.

Definition isOptionalNumber (v : JsValue) : bool :=
  match v with JsUndefined | JsNumber (Num _) => true | _ => false end.

(** Modelled from the spec: a schema with the types of the spec's data
    model and nothing more: six text fields and three optional numbers. *)
Definition typedSchema (j : Job) : bool :=
  let f := fields j in
  isText (title f) && isText (description f) && isText (category f)
  && isText (country f) && isText (city f) && isText (location f)
  && isOptionalNumber (fixedSalary f) && isOptionalNumber (salaryFrom f)
  && isOptionalNumber (salaryTo f).

Definition employer (n : N) : User := mkUser n "Employer".
Definition jobSeeker (n : N) : User := mkUser n "Job Seeker".

(** The body of the spec's example, with the salary fields given. *)
Definition devBody (salary : list (string * JsValue)) : gmap string JsValue :=
  list_to_map
    ([("title", JsString "Dev"); ("description", JsString "Build X");
      ("category", JsString "Eng"); ("country", JsString "US");
      ("city", JsString "NY"); ("location", JsString "Office")] ++ salary).

Definition emptyDb : Collection := mkCollection [] 1%N.

(** The job the spec's example creates, posted by user 7, and a
    collection holding it. *)
Definition devJob : Job :=
  mkJob 1%N
    (mkJobFields (JsString "Dev") (JsString "Build X") (JsString "Eng")
       (JsString "US") (JsString "NY") (JsString "Office")
       (JsNumber (Num 5000)) JsUndefined JsUndefined)
    7%N false.

Definition oneJobDb : Collection := mkCollection [devJob] 2%N.

(** The spec's example request, by an Employer, with the given salary. *)
Definition devRequest (caller : N) (salary : list (string * JsValue)) : Request :=
  mkRequest (employer caller) (devBody salary) "".

Definition fixed5000 : list (string * JsValue) :=
  [("fixedSalary", JsNumber (Num 5000))].

Definition range1000_2000 : list (string * JsValue) :=
  [("salaryFrom", JsNumber (Num 1000)); ("salaryTo", JsNumber (Num 2000))].

Definition key1 : string := "000000000000000000000001".
Definition key2 : string := "000000000000000000000002".

(** A second job, posted by user 9 and expired, and a collection holding
    both. *)
Definition opsJob : Job :=
  mkJob 2%N
    (mkJobFields (JsString "Ops") (JsString "Run Y") (JsString "Eng")
       (JsString "US") (JsString "LA") (JsString "Remote")
       JsUndefined (JsNumber (Num 1000)) (JsNumber (Num 2000)))
    9%N true.

Definition twoJobDb : Collection := mkCollection [devJob; opsJob] 3%N.

(** * Properties *)

(** Unfolds one handler down to the storage operations. *)
Ltac run_handler :=
  unfold postJob, getAllJobs, getMyJobs, updateJob, deleteJob, getSingleJob,
    catchAsyncError, tryCatch, await, resolve, reject,
    Job_find, Job_findOne, Job_create, Job_findById, Job_findByIdAndUpdate,
    Job_deleteOne; cbn beta iota zeta.

Lemma find_none_iff (p : Job -> bool) (l : list Job) :
  List.find p l = None <-> Forall (fun j => p j = false) l.
Proof.
  induction l as [|j l IH]; simpl.
  - split; [constructor | reflexivity].
  - destruct (p j) eqn:E.
    + split; [discriminate | intros H; inversion H; congruence].
    + rewrite IH. split; [intros H; constructor; assumption | intros H; inversion H; assumption].
Qed.

Lemma find_some_in (p : Job -> bool) (l : list Job) (j : Job) :
  List.find p l = Some j -> In j l /\ p j = true.
Proof. apply List.find_some. Qed.

Section HandlerProperties.

Variable castObjectId : string -> option ObjectId.
Variable schemaAccepts : Job -> bool.

(** [postJob] as a decision list over the request and the collection. *)
Lemma postJob_cases (req : Request) (db : Collection) :
  let f := requestFields req in
  postJob schemaAccepts req db =
    if String.eqb (role (user req)) "Job Seeker" then
      (db, Next (mkErrorHandler
         "Job Seeker not allowed to access this resource." (Some 400)))
    else if negb (requiredPresent f) then
      (db, Next (mkErrorHandler "Please provide full job details." (Some 400)))
    else if underSpecified f then
      (db, Next (mkErrorHandler
         "Please either provide fixed salary or ranged salary." (Some 400)))
    else if overSpecified f then
      (db, Next (mkErrorHandler
         "Cannot Enter Fixed and Ranged Salary together." (Some 400)))
    else match List.find (matches (ByFields f)) (docs db) with
         | Some _ => (db, Next (mkErrorHandler "Job already exist!" None))
         | None =>
             let doc := mkJob (nextId db) f (_id (user req)) false in
             if schemaAccepts doc
             then (mkCollection (docs db ++ [doc]) (N.succ (nextId db)),
                   Sent (mkResponse 200 []
                     (PostJson true "Job posted successfully!" doc)))
             else (db, NextThrown ValidationError)
         end.
Proof.
  intros f. subst f. run_handler.
  unfold requiredPresent, underSpecified, overSpecified, fixedForm, rangedForm,
    requestFields; cbn [title description category country city location
                        fixedSalary salaryFrom salaryTo].
  destruct (String.eqb (role (user req)) "Job Seeker"); [reflexivity|].
  destruct (truthy (prop (body req) "title")),
           (truthy (prop (body req) "description")),
           (truthy (prop (body req) "category")),
           (truthy (prop (body req) "country")),
           (truthy (prop (body req) "city")),
           (truthy (prop (body req) "location")); cbn; try reflexivity.
  destruct (truthy (prop (body req) "fixedSalary")),
           (truthy (prop (body req) "salaryFrom")),
           (truthy (prop (body req) "salaryTo")); cbn; try reflexivity.
  all: destruct (List.find _ (docs db)); try reflexivity.
  all: destruct (schemaAccepts _); reflexivity.
Qed.

(** C9. List-active-jobs answers 200 with exactly the stored jobs whose
    [expired] field is false: every such job is listed, no job with
    [expired = true] is, and the collection is left as it was. *)
Theorem getAllJobs_exactly_active (req : Request) (db : Collection) :
  exists jobs : list Job,
    getAllJobs req db = (db, Sent (mkResponse 200 [] (JobsJson true jobs)))
    /\ (forall j, In j jobs <-> In j (docs db) /\ expired j = false)
    /\ (forall j, In j jobs -> expired j <> true).
Proof.
  exists (List.filter (matches (ByExpired false)) (docs db)).
  split; [reflexivity|].
  assert (Hin : forall j, In j (List.filter (matches (ByExpired false)) (docs db))
                          <-> In j (docs db) /\ expired j = false).
  { intros j. rewrite List.filter_In. cbn [matches].
    destruct (expired j); cbn; intuition congruence. }
  split; [exact Hin|].
  intros j Hj. apply Hin in Hj. destruct Hj as [_ Hj]. rewrite Hj. discriminate.
Qed.

(** C5. A caller whose role is "Job Seeker" is turned away with status
    400 by create, list-my-jobs, update and delete, whatever the body and
    the identifier are, and the collection is left as it was. *)
Theorem jobSeeker_rejected_400 (req : Request) (db : Collection) :
  role (user req) = "Job Seeker" ->
  (exists e, postJob schemaAccepts req db = (db, Next e) /\ statusCode e = Some 400)
  /\ (exists e, getMyJobs req db = (db, Next e) /\ statusCode e = Some 400)
  /\ (exists e, updateJob castObjectId schemaAccepts req db = (db, Next e)
                /\ statusCode e = Some 400)
  /\ (exists e, deleteJob castObjectId req db = (db, Next e)
                /\ statusCode e = Some 400).
Proof.
  intros Hrole. run_handler. rewrite Hrole. cbn.
  repeat split; eexists; split; reflexivity.
Qed.

(** C7 (as amended). A create request whose salary fields are
    under-specified (neither the fixed salary nor the full range is
    present) or over-specified (the fixed salary together with the full
    range) is answered with status 400 and writes nothing, where a salary
    field counts as present only when it is truthy, so that a field given
    as 0 counts as absent.  This holds for every caller, so for every
    Employer. *)
Theorem postJob_bad_salary_shape_400 (req : Request) (db : Collection) :
  underSpecified (requestFields req) = true
  \/ overSpecified (requestFields req) = true ->
  exists e, postJob schemaAccepts req db = (db, Next e) /\ statusCode e = Some 400.
Proof.
  intros Hshape. rewrite postJob_cases. cbn zeta.
  destruct (String.eqb _ _); [eexists; split; reflexivity|].
  destruct (negb (requiredPresent _)); [eexists; split; reflexivity|].
  destruct (underSpecified _) eqn:Hu; [eexists; split; reflexivity|].
  destruct (overSpecified _) eqn:Ho; [eexists; split; reflexivity|].
  destruct Hshape; discriminate.
Qed.

(** C10. A salary of 0 counts as absent: a create request with
    [fixedSalary = 0] and no range, or with a range whose [salaryFrom] or
    [salaryTo] is 0 and no fixed salary, is answered with status 400 and
    writes nothing; when the caller is not a Job Seeker and the six
    required fields are there, the error is the under-specified-salary
    one. *)
Theorem postJob_zero_salary_is_absent (req : Request) (db : Collection) :
  let f := requestFields req in
  (fixedSalary f = JsNumber (Num 0)
     /\ salaryFrom f = JsUndefined /\ salaryTo f = JsUndefined)
  \/ (fixedSalary f = JsUndefined
     /\ (salaryFrom f = JsNumber (Num 0) \/ salaryTo f = JsNumber (Num 0))) ->
  (exists e, postJob schemaAccepts req db = (db, Next e) /\ statusCode e = Some 400)
  /\ (role (user req) <> "Job Seeker" -> requiredPresent f = true ->
      postJob schemaAccepts req db =
        (db, Next (mkErrorHandler
           "Please either provide fixed salary or ranged salary." (Some 400)))).
Proof.
  intros f Hzero.
  assert (Hu : underSpecified f = true).
  { unfold underSpecified, fixedForm, rangedForm.
    destruct Hzero as [(Hf & Hfrom & Hto) | (Hf & [Hfrom | Hto])].
    - rewrite Hf, Hfrom, Hto. reflexivity.
    - rewrite Hf, Hfrom. reflexivity.
    - rewrite Hf, Hto. cbn. rewrite andb_false_r. reflexivity. }
  split.
  - rewrite postJob_cases. cbn zeta. fold f. rewrite Hu.
    destruct (String.eqb _ _); [eexists; split; reflexivity|].
    destruct (negb (requiredPresent f)); eexists; split; reflexivity.
  - intros Hrole Hreq. rewrite postJob_cases. cbn zeta. fold f.
    apply String.eqb_neq in Hrole. rewrite Hrole, Hreq, Hu. reflexivity.
Qed.


(** C1 (as amended). When the post operation accepts a request, the job it
    persists has a fixed salary or a full range (never neither form), and
    never the fixed salary together with the full range. *)
Theorem postJob_accepted_salary_shape
  (req : Request) (db db' : Collection) (res : Response) :
  postJob schemaAccepts req db = (db', Sent res) ->
  exists post : Job,
    res = mkResponse 200 [] (PostJson true "Job posted successfully!" post)
    /\ docs db' = (docs db ++ [post])%list
    /\ (fixedForm (fields post) || rangedForm (fields post)) = true
    /\ (fixedForm (fields post) && rangedForm (fields post)) = false.
Proof.
  rewrite postJob_cases. cbn zeta.
  destruct (String.eqb _ _); [discriminate|].
  destruct (negb (requiredPresent _)); [discriminate|].
  destruct (underSpecified _) eqn:Hu; [discriminate|].
  destruct (overSpecified _) eqn:Ho; [discriminate|].
  destruct (List.find _ _); [discriminate|].
  destruct (schemaAccepts _); [|discriminate].
  intros H. injection H as Hdb Hres. subst db' res.
  eexists. split; [reflexivity|]. split; [reflexivity|].
  cbn [fields]. revert Hu Ho. unfold underSpecified, overSpecified.
  destruct (fixedForm _), (rangedForm _); cbn; intuition congruence.
Qed.

(** C8. Get-single-job: an identifier that does not cast to a storage key
    is answered 404 "Invalid ID / CastError!"; a well-formed identifier
    that no stored job has is answered 404 "Job not found!"; otherwise
    the answer is 200 with the stored record.  Nothing is written. *)
Theorem getSingleJob_outcomes (req : Request) (db : Collection) :
  (castObjectId (params_id req) = None ->
     getSingleJob castObjectId req db =
       (db, Next (mkErrorHandler "Invalid ID / CastError!" (Some 404))))
  /\ (forall oid, castObjectId (params_id req) = Some oid ->
        Forall (fun j => job_id j <> oid) (docs db) ->
        getSingleJob castObjectId req db =
          (db, Next (mkErrorHandler "Job not found!" (Some 404))))
  /\ (forall oid, castObjectId (params_id req) = Some oid ->
        Exists (fun j => job_id j = oid) (docs db) ->
        exists job, In job (docs db) /\ job_id job = oid
          /\ getSingleJob castObjectId req db =
               (db, Sent (mkResponse 200 [] (JobJson true job)))).
Proof.
  run_handler. repeat split.
  - intros ->. reflexivity.
  - intros oid -> Hnone.
    assert (Hfind : List.find (hasId oid) (docs db) = None).
    { apply find_none_iff. eapply List.Forall_impl; [|exact Hnone].
      intros j Hj. unfold hasId. apply N.eqb_neq. exact Hj. }
    rewrite Hfind. reflexivity.
  - intros oid -> Hex.
    destruct (List.find (hasId oid) (docs db)) as [job|] eqn:Hfind.
    + apply find_some_in in Hfind. destruct Hfind as [Hin Hid].
      exists job. unfold hasId in Hid. apply N.eqb_eq in Hid.
      repeat split; assumption || reflexivity.
    + exfalso. apply find_none_iff in Hfind.
      apply Exists_exists in Hex. destruct Hex as (j & Hin & Hid).
      rewrite Forall_forall in Hfind. specialize (Hfind j Hin).
      unfold hasId in Hfind. apply N.eqb_neq in Hfind. contradiction.
Qed.

(** A create request that passes the checks and whose field tuple a
    stored job already has is handed to [next] with the duplicate
    message and no status code; nothing is written. *)
Lemma postJob_duplicate (req : Request) (db : Collection) :
  let f := requestFields req in
  role (user req) <> "Job Seeker" ->
  requiredPresent f = true ->
  underSpecified f = false -> overSpecified f = false ->
  Exists (fun j => fields j = f) (docs db) ->
  postJob schemaAccepts req db =
    (db, Next (mkErrorHandler "Job already exist!" None)).
Proof.
  intros f Hrole Hreq Hu Ho Hex.
  rewrite postJob_cases. cbn zeta. fold f.
  apply String.eqb_neq in Hrole. rewrite Hrole, Hreq, Hu, Ho. cbn [negb].
  destruct (List.find (matches (ByFields f)) (docs db)) eqn:Hfind; [reflexivity|].
  exfalso. apply find_none_iff in Hfind. rewrite Forall_forall in Hfind.
  apply Exists_exists in Hex. destruct Hex as (j & Hin & Hj).
  specialize (Hfind j Hin). cbn in Hfind.
  apply bool_decide_eq_false in Hfind. contradiction.
Qed.

(** [updateJob] and [deleteJob] as decision lists. *)
Lemma deleteJob_cases (req : Request) (db : Collection) :
  deleteJob castObjectId req db =
    if String.eqb (role (user req)) "Job Seeker" then
      (db, Next (mkErrorHandler
         "Job Seeker not allowed to access this resource." (Some 400)))
    else match castObjectId (params_id req) with
         | None => (db, NextThrown (CastError (JsString (params_id req)) "_id"))
         | Some oid =>
             match List.find (hasId oid) (docs db) with
             | None => (db, Next (mkErrorHandler "Opps Job not found!." (Some 400)))
             | Some post =>
                 (mkCollection (removeFirst (job_id post) (docs db)) (nextId db),
                  Sent (mkResponse 200 []
                    (DeletedJson true "Job deleted successfully!")))
             end
         end.
Proof.
  run_handler.
  destruct (String.eqb _ _); [reflexivity|].
  destruct (castObjectId _); [|reflexivity].
  destruct (List.find _ _); reflexivity.
Qed.

Lemma updateJob_sent (req : Request) (db db' : Collection) (res : Response) :
  updateJob castObjectId schemaAccepts req db = (db', Sent res) ->
  String.eqb (role (user req)) "Job Seeker" = false
  /\ exists oid job, castObjectId (params_id req) = Some oid
       /\ List.find (hasId oid) (docs db) = Some job.
Proof.
  run_handler.
  destruct (String.eqb _ _); [discriminate|].
  destruct (castObjectId _) as [oid|]; [|discriminate].
  destruct (List.find _ _) as [job|] eqn:Hfind; [|discriminate].
  intros _. split; [reflexivity|]. exists oid, job. split; [reflexivity|exact Hfind].
Qed.

(** C2 (as amended). Update and delete are guarded by the caller's role
    and by the existence of the job, not by ownership.  A request that
    succeeds comes from a caller whose role is not "Job Seeker" and
    targets a stored job; a delete by any such caller removes the
    targeted job whatever its [postedBy] is; a Job Seeker's request
    leaves the collection as it was. *)
Theorem update_delete_guarded_by_role (req : Request) (db : Collection) :
  (forall db' res,
      updateJob castObjectId schemaAccepts req db = (db', Sent res)
      \/ deleteJob castObjectId req db = (db', Sent res) ->
      role (user req) <> "Job Seeker"
      /\ exists oid job, castObjectId (params_id req) = Some oid
           /\ In job (docs db) /\ job_id job = oid)
  /\ (forall oid job,
        role (user req) <> "Job Seeker" ->
        castObjectId (params_id req) = Some oid ->
        List.find (hasId oid) (docs db) = Some job ->
        deleteJob castObjectId req db =
          (mkCollection (removeFirst oid (docs db)) (nextId db),
           Sent (mkResponse 200 [] (DeletedJson true "Job deleted successfully!"))))
  /\ (role (user req) = "Job Seeker" ->
        fst (updateJob castObjectId schemaAccepts req db) = db
        /\ fst (deleteJob castObjectId req db) = db).
Proof.
  split; [|split].
  - intros db' res Hsent.
    assert (H : String.eqb (role (user req)) "Job Seeker" = false
                /\ exists oid job, castObjectId (params_id req) = Some oid
                     /\ List.find (hasId oid) (docs db) = Some job).
    { destruct Hsent as [Hu | Hd].
      - eapply updateJob_sent; exact Hu.
      - rewrite deleteJob_cases in Hd.
        destruct (String.eqb _ _); [discriminate|].
        destruct (castObjectId _) as [oid|]; [|discriminate].
        destruct (List.find _ _) as [job|] eqn:Hfind; [|discriminate].
        split; [reflexivity|]. exists oid, job. split; [reflexivity|exact Hfind]. }
    destruct H as (Hrole & oid & job & Hcast & Hfind).
    split; [apply String.eqb_neq; exact Hrole|].
    apply find_some_in in Hfind. destruct Hfind as [Hin Hid].
    exists oid, job. unfold hasId in Hid. apply N.eqb_eq in Hid. auto.
  - intros oid job Hrole Hcast Hfind.
    rewrite deleteJob_cases. apply String.eqb_neq in Hrole.
    rewrite Hrole, Hcast, Hfind.
    apply find_some_in in Hfind. destruct Hfind as [_ Hid].
    unfold hasId in Hid. apply N.eqb_eq in Hid. rewrite Hid. reflexivity.
  - intros Hrole. run_handler. rewrite Hrole. split; reflexivity.
Qed.

End HandlerProperties.

(** ** The handlers on concrete requests *)

(** C1, as stated, fails: a request with a fixed salary and the lower bound
    of a range passes both salary checks; the job is persisted with both
    fields, which is neither the fixed salary alone nor a full range. *)
Lemma postJob_accepts_fixed_with_half_range :
  exists post : Job,
    postJob typedSchema
      (devRequest 7 (fixed5000 ++ [("salaryFrom", JsNumber (Num 1000))])) emptyDb
    = (mkCollection [post] 2%N,
       Sent (mkResponse 200 [] (PostJson true "Job posted successfully!" post)))
    /\ fixedSalary (fields post) = JsNumber (Num 5000)
    /\ salaryFrom (fields post) = JsNumber (Num 1000)
    /\ salaryTo (fields post) = JsUndefined
    /\ exactlyOneSalary (fields post) = false.
Proof.
  eexists. split; [vm_compute; reflexivity|].
  repeat split; reflexivity.
Qed.

(** C2, as stated, fails: an Employer who did not post a job deletes it, and
    an Employer who did not post it rewrites its title. *)
Lemma nonOwner_deletes_and_updates :
  postedBy devJob = 7%N
  /\ _id (employer 9) <> postedBy devJob
  /\ deleteJob hexObjectId (mkRequest (employer 9) ∅ key1) oneJobDb
     = (mkCollection [] 2%N,
        Sent (mkResponse 200 [] (DeletedJson true "Job deleted successfully!")))
  /\ exists post' : Job,
       updateJob hexObjectId typedSchema
         (mkRequest (employer 9) {[ "title" := JsString "Taken" ]} key1) oneJobDb
       = (mkCollection [post'] 2%N,
          Sent (mkResponse 200 [] (UpdatedJson true (Some post') "Job updated successfully!")))
       /\ title (fields post') = JsString "Taken"
       /\ postedBy post' = 7%N.
Proof.
  split; [reflexivity|]. split; [discriminate|]. split; [vm_compute; reflexivity|].
  eexists. split; [vm_compute; reflexivity|]. split; reflexivity.
Qed.

(** C7, as stated, fails: a request by an Employer that gives the fixed
    salary and both ends of the range, the lower end being 0, has both forms
    given together; it passes both salary checks, is answered 200 and is
    persisted with all three fields, and under no schema is it handed to
    [next] as an error with status 400. *)
Lemma postJob_accepts_both_forms_with_zero_bound :
  bothFormsSupplied (requestFields
    (devRequest 7 (fixed5000 ++ [("salaryFrom", JsNumber (Num 0));
                                 ("salaryTo", JsNumber (Num 2000))]))) = true
  /\ (exists post : Job,
        postJob typedSchema
          (devRequest 7 (fixed5000 ++ [("salaryFrom", JsNumber (Num 0));
                                       ("salaryTo", JsNumber (Num 2000))])) emptyDb
        = (mkCollection [post] 2%N,
           Sent (mkResponse 200 [] (PostJson true "Job posted successfully!" post)))
        /\ fixedSalary (fields post) = JsNumber (Num 5000)
        /\ salaryFrom (fields post) = JsNumber (Num 0)
        /\ salaryTo (fields post) = JsNumber (Num 2000))
  /\ (forall (schemaAccepts : Job -> bool) (db' : Collection) (e : ErrorHandler),
        postJob schemaAccepts
          (devRequest 7 (fixed5000 ++ [("salaryFrom", JsNumber (Num 0));
                                       ("salaryTo", JsNumber (Num 2000))])) emptyDb
        <> (db', Next e)).
Proof.
  split; [vm_compute; reflexivity|]. split.
  - eexists. split; [vm_compute; reflexivity|]. repeat split; reflexivity.
  - intros schemaAccepts db' e. rewrite postJob_cases. vm_compute.
    destruct (schemaAccepts _); intros H; discriminate H.
Qed.

(** C3. A create request whose field tuple a stored job already has is
    refused with the message "Job already exist!", and the error handed to
    [next] carries no status code, so not the 400 the other refusals of
    [postJob] carry. *)
Theorem postJob_duplicate_has_no_status :
  Exists (fun j => fields j = requestFields (devRequest 7 fixed5000)) (docs oneJobDb)
  /\ postJob typedSchema (devRequest 7 fixed5000) oneJobDb
     = (oneJobDb, Next (mkErrorHandler "Job already exist!" None))
  /\ statusCode (mkErrorHandler "Job already exist!" None) <> Some 400.
Proof.
  split; [|split].
  - apply Exists_cons_hd. vm_compute. reflexivity.
  - vm_compute. reflexivity.
  - discriminate.
Qed.

(** C4. The helper answers with the given status and a JSON body holding
    success, the user, the message and the token, and sets a cookie named
    [token] with the token and [httpOnly].  The date it computes is an
    Invalid Date whatever the environment holds, because the number of days
    is read from [process.envCOOKIE_EXPIRE], which is undefined; so it is
    never the date COOKIE_EXPIRE days after now, and the options have no
    [expires] or [maxAge] entry. *)
Theorem sendResponseToken_expiry_is_invalid
  (getJWTtoken : User -> string) (process : Process) (now : Z)
  (user : User) (statusCode : Z) (message : string) :
  sendResponseToken getJWTtoken process now user statusCode message
  = mkResponse statusCode
      [mkCookie "token" (getJWTtoken user)
         {[ "expiresIn" := JsDate NaN; "httpOnly" := JsBool true ]}]
      (TokenJson true user message (getJWTtoken user))
  /\ (forall days : Z,
        cookieOptions process now !! "expiresIn" <> Some (expiration_spec days now))
  /\ cookieOptions process now !! "expires" = None
  /\ cookieOptions process now !! "maxAge" = None.
Proof.
  assert (Hopts : cookieOptions process now
                  = {[ "expiresIn" := JsDate NaN; "httpOnly" := JsBool true ]}).
  { reflexivity. }
  split; [unfold sendResponseToken; rewrite Hopts; reflexivity|].
  rewrite Hopts. split; [|split; reflexivity].
  intros days H. vm_compute in H. discriminate H.
Qed.

(** ** The theorems at concrete requests *)

Lemma jobSeeker_rejected_400_witness :
  role (user (mkRequest (jobSeeker 3) (devBody fixed5000) key1)) = "Job Seeker"
  /\ (exists e, postJob typedSchema
                  (mkRequest (jobSeeker 3) (devBody fixed5000) key1) oneJobDb
                = (oneJobDb, Next e)
                /\ statusCode e = Some 400)
  /\ (exists e, getMyJobs (mkRequest (jobSeeker 3) (devBody fixed5000) key1) oneJobDb
                = (oneJobDb, Next e)
                /\ statusCode e = Some 400)
  /\ (exists e, updateJob hexObjectId typedSchema
                  (mkRequest (jobSeeker 3) (devBody fixed5000) key1) oneJobDb
                = (oneJobDb, Next e)
                /\ statusCode e = Some 400)
  /\ (exists e, deleteJob hexObjectId
                  (mkRequest (jobSeeker 3) (devBody fixed5000) key1) oneJobDb
                = (oneJobDb, Next e)
                /\ statusCode e = Some 400).
Proof.
  split; [reflexivity|].
  apply (jobSeeker_rejected_400 hexObjectId typedSchema
           (mkRequest (jobSeeker 3) (devBody fixed5000) key1) oneJobDb).
  reflexivity.
Defined.

Lemma postJob_bad_salary_shape_400_witness :
  overSpecified (requestFields (devRequest 7 (fixed5000 ++ range1000_2000))) = true
  /\ exists e, postJob typedSchema (devRequest 7 (fixed5000 ++ range1000_2000)) emptyDb
               = (emptyDb, Next e)
               /\ statusCode e = Some 400.
Proof.
  split; [vm_compute; reflexivity|].
  apply (postJob_bad_salary_shape_400 typedSchema
           (devRequest 7 (fixed5000 ++ range1000_2000)) emptyDb).
  right. vm_compute. reflexivity.
Defined.

Lemma postJob_zero_salary_is_absent_witness :
  fixedSalary (requestFields (devRequest 7 [("fixedSalary", JsNumber (Num 0))]))
  = JsNumber (Num 0)
  /\ postJob typedSchema (devRequest 7 [("fixedSalary", JsNumber (Num 0))]) emptyDb
     = (emptyDb, Next (mkErrorHandler
          "Please either provide fixed salary or ranged salary." (Some 400))).
Proof.
  split; [vm_compute; reflexivity|].
  apply (postJob_zero_salary_is_absent typedSchema
           (devRequest 7 [("fixedSalary", JsNumber (Num 0))]) emptyDb).
  - left. vm_compute. repeat split; reflexivity.
  - vm_compute. discriminate.
  - vm_compute. reflexivity.
Defined.


Lemma postJob_accepted_salary_shape_witness :
  exists post : Job,
    mkResponse 200 [] (PostJson true "Job posted successfully!"
      (mkJob 1%N (requestFields (devRequest 7 range1000_2000)) 7%N false))
    = mkResponse 200 [] (PostJson true "Job posted successfully!" post)
    /\ docs (mkCollection
               [mkJob 1%N (requestFields (devRequest 7 range1000_2000)) 7%N false] 2%N)
       = (docs emptyDb ++ [post])%list
    /\ (fixedForm (fields post) || rangedForm (fields post)) = true
    /\ (fixedForm (fields post) && rangedForm (fields post)) = false.
Proof.
  apply (postJob_accepted_salary_shape typedSchema
           (devRequest 7 range1000_2000) emptyDb).
  vm_compute. reflexivity.
Defined.

Lemma getSingleJob_outcomes_witness :
  getSingleJob hexObjectId (mkRequest (jobSeeker 3) ∅ "not-a-key") oneJobDb
  = (oneJobDb, Next (mkErrorHandler "Invalid ID / CastError!" (Some 404)))
  /\ getSingleJob hexObjectId (mkRequest (jobSeeker 3) ∅ key2) oneJobDb
     = (oneJobDb, Next (mkErrorHandler "Job not found!" (Some 404)))
  /\ exists job, In job (docs oneJobDb) /\ job_id job = 1%N
       /\ getSingleJob hexObjectId (mkRequest (jobSeeker 3) ∅ key1) oneJobDb
          = (oneJobDb, Sent (mkResponse 200 [] (JobJson true job))).
Proof.
  split; [|split].
  - apply (getSingleJob_outcomes hexObjectId
             (mkRequest (jobSeeker 3) ∅ "not-a-key") oneJobDb).
    vm_compute. reflexivity.
  - apply (getSingleJob_outcomes hexObjectId
             (mkRequest (jobSeeker 3) ∅ key2) oneJobDb) with (oid := 2%N).
    + vm_compute. reflexivity.
    + constructor; [discriminate | constructor].
  - apply (getSingleJob_outcomes hexObjectId
             (mkRequest (jobSeeker 3) ∅ key1) oneJobDb).
    + vm_compute. reflexivity.
    + apply Exists_cons_hd. reflexivity.
Defined.

Lemma update_delete_guarded_by_role_witness :
  (role (user (mkRequest (employer 9) ∅ key1)) <> "Job Seeker"
   /\ exists oid job, hexObjectId key1 = Some oid
        /\ In job (docs oneJobDb) /\ job_id job = oid)
  /\ deleteJob hexObjectId (mkRequest (employer 9) ∅ key1) oneJobDb
     = (mkCollection (removeFirst 1%N (docs oneJobDb)) (nextId oneJobDb),
        Sent (mkResponse 200 [] (DeletedJson true "Job deleted successfully!")))
  /\ (fst (updateJob hexObjectId typedSchema
             (mkRequest (jobSeeker 3) {[ "title" := JsString "Taken" ]} key1) oneJobDb)
      = oneJobDb
      /\ fst (deleteJob hexObjectId
                (mkRequest (jobSeeker 3) {[ "title" := JsString "Taken" ]} key1) oneJobDb)
         = oneJobDb).
Proof.
  split; [|split].
  - apply (update_delete_guarded_by_role hexObjectId typedSchema
             (mkRequest (employer 9) ∅ key1) oneJobDb)
      with (db' := mkCollection [] 2%N)
           (res := mkResponse 200 [] (DeletedJson true "Job deleted successfully!")).
    right. vm_compute. reflexivity.
  - apply (update_delete_guarded_by_role hexObjectId typedSchema
             (mkRequest (employer 9) ∅ key1) oneJobDb) with (job := devJob).
    + vm_compute. discriminate.
    + vm_compute. reflexivity.
    + vm_compute. reflexivity.
  - apply (update_delete_guarded_by_role hexObjectId typedSchema
             (mkRequest (jobSeeker 3) {[ "title" := JsString "Taken" ]} key1) oneJobDb).
    reflexivity.
Defined.

(** * Further properties of the handlers *)

(** ** Lists of documents *)

Lemma removeFirst_find (oid : ObjectId) (l : list Job) (j : Job) :
  List.find (hasId oid) l = Some j ->
  length l = S (length (removeFirst oid l))
  /\ (forall x, In x l -> job_id x <> oid -> In x (removeFirst oid l))
  /\ (forall x, In x (removeFirst oid l) -> In x l).
Proof.
  induction l as [|a l IH]; cbn [List.find removeFirst]; [discriminate|].
  destruct (hasId oid a) eqn:Ha.
  - intros _. split; [reflexivity|]. split.
    + intros x [-> | Hx] Hne; [|exact Hx].
      unfold hasId in Ha. apply N.eqb_eq in Ha. contradiction.
    + intros x Hx. right. exact Hx.
  - intros Hfind. destruct (IH Hfind) as (Hlen & Hkeep & Hsub).
    split; [cbn [length]; rewrite Hlen; reflexivity|]. split.
    + intros x [-> | Hx] Hne; [left; reflexivity | right; apply Hkeep; assumption].
    + intros x [-> | Hx]; [left; reflexivity | right; apply Hsub; assumption].
Qed.

Lemma removeFirst_unique (oid : ObjectId) (l : list Job) :
  List.NoDup (map job_id l) ->
  Forall (fun j => job_id j <> oid) (removeFirst oid l).
Proof.
  induction l as [|a l IH]; cbn [removeFirst map]; [constructor|].
  intros Hnd. apply List.NoDup_cons_iff in Hnd. destruct Hnd as [Hnotin Hnd].
  destruct (hasId oid a) eqn:Ha; unfold hasId in Ha.
  - apply N.eqb_eq in Ha. subst oid. apply List.Forall_forall. intros x Hx Heq.
    apply Hnotin. rewrite <- Heq. apply in_map. exact Hx.
  - apply N.eqb_neq in Ha. constructor; [exact Ha | apply IH; exact Hnd].
Qed.

Lemma removeFirst_last (oid : ObjectId) (l : list Job) (d : Job) :
  Forall (fun j => job_id j <> oid) l -> job_id d = oid ->
  removeFirst oid (l ++ [d]) = l.
Proof.
  intros Hl Hd. induction Hl as [|a l Ha _ IH]; cbn [removeFirst app].
  - unfold hasId. rewrite Hd, N.eqb_refl. reflexivity.
  - unfold hasId at 1. apply N.eqb_neq in Ha. rewrite Ha, IH. reflexivity.
Qed.

Lemma find_last (oid : ObjectId) (l : list Job) (d : Job) :
  Forall (fun j => job_id j <> oid) l -> job_id d = oid ->
  List.find (hasId oid) (l ++ [d]) = Some d.
Proof.
  intros Hl Hd. induction Hl as [|a l Ha _ IH]; cbn [List.find app].
  - unfold hasId. rewrite Hd, N.eqb_refl. reflexivity.
  - unfold hasId at 1. apply N.eqb_neq in Ha. rewrite Ha. exact IH.
Qed.

Lemma replaceFirst_find (oid : ObjectId) (j' : Job) (l : list Job) (j : Job) :
  List.find (hasId oid) l = Some j -> job_id j' = oid ->
  List.find (hasId oid) (replaceFirst oid j' l) = Some j'
  /\ map job_id (replaceFirst oid j' l) = map job_id l.
Proof.
  intros Hfind Hid. revert Hfind.
  induction l as [|a l IH]; cbn [List.find replaceFirst]; [discriminate|].
  destruct (hasId oid a) eqn:Ha.
  - intros _. cbn [List.find map]. unfold hasId at 1. rewrite Hid, N.eqb_refl.
    split; [reflexivity|]. unfold hasId in Ha. apply N.eqb_eq in Ha.
    rewrite Ha. reflexivity.
  - intros Hfind. cbn [List.find map]. rewrite Ha.
    destruct (IH Hfind) as [H1 H2]. rewrite H2. split; [exact H1 | reflexivity].
Qed.

Lemma applyUpdate_keeps_key (cast : string -> option ObjectId)
  (o : gmap string JsValue) (j j' : Job) :
  applyUpdate cast o j = Ok j' -> job_id j' = job_id j.
Proof.
  unfold applyUpdate.
  destruct (castPostedBy cast o (postedBy j)); [|discriminate].
  destruct (castExpired o (expired j)); [|discriminate].
  intros H. injection H as <-. reflexivity.
Qed.

Section MoreHandlerProperties.

Variable castObjectId : string -> option ObjectId.
Variable schemaAccepts : Job -> bool.

(** [updateJob] as a decision list. *)
Lemma updateJob_cases (req : Request) (db : Collection) :
  updateJob castObjectId schemaAccepts req db =
    if String.eqb (role (user req)) "Job Seeker" then
      (db, Next (mkErrorHandler "Opps Job not found!." (Some 400)))
    else match castObjectId (params_id req) with
         | None => (db, NextThrown (CastError (JsString (params_id req)) "_id"))
         | Some oid =>
             match List.find (hasId oid) (docs db) with
             | None =>
                 (db, Next (mkErrorHandler
                    "Job Seeker not allowed to access this resource." (Some 400)))
             | Some j =>
                 match applyUpdate castObjectId (body req) j with
                 | Throw e => (db, NextThrown e)
                 | Ok j' =>
                     if schemaAccepts j'
                     then (mkCollection (replaceFirst oid j' (docs db)) (nextId db),
                           Sent (mkResponse 200 []
                             (UpdatedJson true (Some j') "Job updated successfully!")))
                     else (db, NextThrown ValidationError)
                 end
             end
         end.
Proof.
  run_handler.
  destruct (String.eqb _ _); [reflexivity|].
  destruct (castObjectId _) as [oid|] eqn:Hcast; [|reflexivity].
  destruct (List.find _ _) as [j|] eqn:Hfind; [|reflexivity].
  rewrite Hfind.
  destruct (applyUpdate _ _ _); [|reflexivity].
  destruct (schemaAccepts _); reflexivity.
Qed.

(** X1. A create request by a caller who is not a Job Seeker in which one of
    title, description, category, country, city, location is missing or
    falsy (an empty string counts) is refused with 400 "Please provide full
    job details.", whatever the salary fields are, and writes nothing. *)
Theorem postJob_missing_required_400 (req : Request) (db : Collection) :
  role (user req) <> "Job Seeker" ->
  requiredPresent (requestFields req) = false ->
  postJob schemaAccepts req db =
    (db, Next (mkErrorHandler "Please provide full job details." (Some 400))).
Proof.
  intros Hrole Hreq. rewrite postJob_cases. cbn zeta.
  apply String.eqb_neq in Hrole. rewrite Hrole, Hreq. reflexivity.
Qed.

(** X2. [postJob] writes only when it answers 200.  An error it hands to
    [next] leaves the collection as it was and carries status 400, except
    the duplicate error, which carries none and is raised only when a
    stored job has the request's field tuple; a rejection of [Job.create]
    leaves the collection as it was too. *)
Theorem postJob_failure_writes_nothing
  (req : Request) (db db' : Collection) (o : Outcome) :
  postJob schemaAccepts req db = (db', o) ->
  match o with
  | Sent res => length (docs db') = S (length (docs db))
  | Next e =>
      db' = db
      /\ (statusCode e = Some 400
          \/ (e = mkErrorHandler "Job already exist!" None
              /\ Exists (fun j => fields j = requestFields req) (docs db)))
  | NextThrown t => db' = db /\ t = ValidationError
  end.
Proof.
  rewrite postJob_cases. cbn zeta.
  destruct (String.eqb _ _);
    [intros H; injection H as <- <-; split; [reflexivity | left; reflexivity]|].
  destruct (negb (requiredPresent _));
    [intros H; injection H as <- <-; split; [reflexivity | left; reflexivity]|].
  destruct (underSpecified _);
    [intros H; injection H as <- <-; split; [reflexivity | left; reflexivity]|].
  destruct (overSpecified _);
    [intros H; injection H as <- <-; split; [reflexivity | left; reflexivity]|].
  destruct (List.find _ _) as [j|] eqn:Hfind.
  - intros H; injection H as <- <-. split; [reflexivity|]. right.
    split; [reflexivity|]. apply find_some_in in Hfind. destruct Hfind as [Hin Hm].
    apply List.Exists_exists. exists j. split; [exact Hin|].
    cbn in Hm. apply bool_decide_eq_true in Hm. exact Hm.
  - destruct (schemaAccepts _); intros H; injection H as <- <-.
    + cbn [docs]. rewrite length_app. cbn. lia.
    + split; reflexivity.
Qed.

(** X3. List-my-jobs, for a caller who is not a Job Seeker, answers 200
    with exactly the stored jobs whose [postedBy] is the caller's
    identifier, expired or not, and writes nothing. *)
Theorem getMyJobs_exactly_own (req : Request) (db : Collection) :
  role (user req) <> "Job Seeker" ->
  exists myJobs : list Job,
    getMyJobs req db = (db, Sent (mkResponse 200 [] (MyJobsJson true myJobs)))
    /\ forall j, In j myJobs <-> In j (docs db) /\ postedBy j = _id (user req).
Proof.
  intros Hrole. apply String.eqb_neq in Hrole.
  exists (List.filter (matches (ByPostedBy (_id (user req)))) (docs db)).
  split.
  - run_handler. rewrite Hrole. reflexivity.
  - intros j. rewrite List.filter_In. cbn [matches]. rewrite N.eqb_eq. reflexivity.
Qed.

(** X4. Update and delete of a well-formed identifier that no stored job
    has are refused with status 400 and write nothing; update reports it
    with the message "Job Seeker not allowed to access this resource." and
    delete with "Opps Job not found!.". *)
Theorem update_delete_missing_job_400
  (req : Request) (db : Collection) (oid : ObjectId) :
  role (user req) <> "Job Seeker" ->
  castObjectId (params_id req) = Some oid ->
  Forall (fun j => job_id j <> oid) (docs db) ->
  updateJob castObjectId schemaAccepts req db =
    (db, Next (mkErrorHandler
       "Job Seeker not allowed to access this resource." (Some 400)))
  /\ deleteJob castObjectId req db =
       (db, Next (mkErrorHandler "Opps Job not found!." (Some 400))).
Proof.
  intros Hrole Hcast Hnone. apply String.eqb_neq in Hrole.
  assert (Hfind : List.find (hasId oid) (docs db) = None).
  { apply find_none_iff. eapply List.Forall_impl; [|exact Hnone].
    intros j Hj. unfold hasId. apply N.eqb_neq. exact Hj. }
  rewrite updateJob_cases, deleteJob_cases, Hrole, Hcast, Hfind.
  split; reflexivity.
Qed.

(** X5. Update and delete do not catch the rejection of the lookup: for an
    identifier that does not cast to a storage key, the thrown error itself
    reaches [next], not an [ErrorHandler] with a status, and nothing is
    written. *)
Theorem update_delete_malformed_id_uncaught (req : Request) (db : Collection) :
  role (user req) <> "Job Seeker" ->
  castObjectId (params_id req) = None ->
  (exists t, updateJob castObjectId schemaAccepts req db = (db, NextThrown t))
  /\ (exists t, deleteJob castObjectId req db = (db, NextThrown t)).
Proof.
  intros Hrole Hcast. apply String.eqb_neq in Hrole.
  rewrite updateJob_cases, deleteJob_cases, Hrole, Hcast.
  split; eexists; reflexivity.
Qed.

(** X6. Get-single-job never lets a thrown error through and never writes:
    for every request, whatever the caller's role, it answers 200 with a
    stored job or hands [next] an error with status 404. *)
Theorem getSingleJob_200_or_404 (req : Request) (db : Collection) :
  fst (getSingleJob castObjectId req db) = db
  /\ ((exists job, In job (docs db)
         /\ snd (getSingleJob castObjectId req db)
            = Sent (mkResponse 200 [] (JobJson true job)))
      \/ (exists e, snd (getSingleJob castObjectId req db) = Next e
            /\ statusCode e = Some 404)).
Proof.
  run_handler.
  destruct (castObjectId (params_id req)) as [oid|].
  - destruct (List.find (hasId oid) (docs db)) as [job|] eqn:Hfind.
    + split; [reflexivity|]. left. exists job.
      apply find_some_in in Hfind. split; [apply Hfind | reflexivity].
    + split; [reflexivity|]. right. eexists. split; reflexivity.
  - split; [reflexivity|]. right. eexists. split; reflexivity.
Qed.

(** What an accepted create request tells about the request and the
    collection it leaves. *)
Lemma postJob_sent (req : Request) (db db' : Collection) (res : Response) :
  postJob schemaAccepts req db = (db', Sent res) ->
  let f := requestFields req in
  let doc := mkJob (nextId db) f (_id (user req)) false in
  String.eqb (role (user req)) "Job Seeker" = false
  /\ requiredPresent f = true
  /\ underSpecified f = false /\ overSpecified f = false
  /\ db' = mkCollection (docs db ++ [doc]) (N.succ (nextId db))
  /\ res = mkResponse 200 [] (PostJson true "Job posted successfully!" doc).
Proof.
  rewrite postJob_cases. cbn zeta.
  destruct (String.eqb _ _); [discriminate|].
  destruct (requiredPresent _); [|discriminate]. cbn [negb].
  destruct (underSpecified _); [discriminate|].
  destruct (overSpecified _); [discriminate|].
  destruct (List.find _ _); [discriminate|].
  destruct (schemaAccepts _); [|discriminate].
  intros H. injection H as <- <-. repeat split; reflexivity.
Qed.

(** X7. The duplicate check does not look at who posts: once a create
    request has been accepted, a request with the same body by any caller
    who is not a Job Seeker is refused as a duplicate and writes nothing. *)
Theorem postJob_repeat_is_duplicate
  (req req' : Request) (db db' : Collection) (res : Response) :
  postJob schemaAccepts req db = (db', Sent res) ->
  body req' = body req ->
  role (user req') <> "Job Seeker" ->
  postJob schemaAccepts req' db' =
    (db', Next (mkErrorHandler "Job already exist!" None)).
Proof.
  intros Hsent Hbody Hrole.
  apply postJob_sent in Hsent. cbn zeta in Hsent.
  destruct Hsent as (_ & Hreq & Hu & Ho & Hdb & _).
  assert (Hf : requestFields req' = requestFields req).
  { unfold requestFields. rewrite Hbody. reflexivity. }
  apply postJob_duplicate; rewrite ?Hf; try assumption.
  subst db'. cbn [docs]. apply List.Exists_exists.
  eexists. split; [apply in_or_app; right; left; reflexivity | reflexivity].
Qed.

(** X8. Create then read: when no stored job has the key the collection
    hands out next, the job an accepted create request returns is the one
    get-single-job answers with for that job's key. *)
Theorem postJob_then_getSingleJob
  (req reqG : Request) (db db' : Collection) (post : Job) :
  postJob schemaAccepts req db =
    (db', Sent (mkResponse 200 [] (PostJson true "Job posted successfully!" post))) ->
  Forall (fun j => job_id j <> nextId db) (docs db) ->
  castObjectId (params_id reqG) = Some (job_id post) ->
  getSingleJob castObjectId reqG db' =
    (db', Sent (mkResponse 200 [] (JobJson true post))).
Proof.
  intros Hsent Hfresh Hcast.
  apply postJob_sent in Hsent. cbn zeta in Hsent.
  destruct Hsent as (_ & _ & _ & _ & Hdb & Hres).
  injection Hres as Hpost. subst db' post. cbn [job_id] in Hcast.
  run_handler. rewrite Hcast. cbn [docs].
  rewrite (find_last (nextId db)); [reflexivity | exact Hfresh | reflexivity].
Qed.

(** X9. Create then list: the job an accepted create request returns is
    among the active jobs, and among the poster's own jobs. *)
Theorem postJob_then_listed
  (req reqL : Request) (db db' : Collection) (post : Job) :
  postJob schemaAccepts req db =
    (db', Sent (mkResponse 200 [] (PostJson true "Job posted successfully!" post))) ->
  (exists jobs, getAllJobs reqL db' = (db', Sent (mkResponse 200 [] (JobsJson true jobs)))
                /\ In post jobs)
  /\ (exists myJobs,
        getMyJobs req db' = (db', Sent (mkResponse 200 [] (MyJobsJson true myJobs)))
        /\ In post myJobs).
Proof.
  intros Hsent. apply postJob_sent in Hsent. cbn zeta in Hsent.
  destruct Hsent as (Hrole & _ & _ & _ & Hdb & Hres).
  injection Hres as Hpost. subst db' post. split.
  - eexists. split; [reflexivity|].
    apply List.filter_In. split; [apply in_or_app; right; left; reflexivity|reflexivity].
  - eexists. split; [run_handler; rewrite Hrole; reflexivity|].
    apply List.filter_In. split; [apply in_or_app; right; left; reflexivity|].
    cbn. apply N.eqb_refl.
Qed.

(** X10. A delete that succeeds removes one document, the first with the
    requested key: the collection is one document shorter, every job with
    another key is still there, nothing is added, and the key counter is
    as it was. *)
Theorem deleteJob_removes_one
  (req : Request) (db db' : Collection) (res : Response) :
  deleteJob castObjectId req db = (db', Sent res) ->
  exists oid, castObjectId (params_id req) = Some oid
    /\ nextId db' = nextId db
    /\ length (docs db) = S (length (docs db'))
    /\ (forall j, In j (docs db) -> job_id j <> oid -> In j (docs db'))
    /\ (forall j, In j (docs db') -> In j (docs db)).
Proof.
  rewrite deleteJob_cases.
  destruct (String.eqb _ _); [discriminate|].
  destruct (castObjectId _) as [oid|]; [|discriminate].
  destruct (List.find _ _) as [job|] eqn:Hfind; [|discriminate].
  intros H. injection H as <- _. exists oid. cbn [docs nextId].
  assert (Hid : job_id job = oid).
  { apply find_some_in in Hfind. destruct Hfind as [_ Hid].
    unfold hasId in Hid. apply N.eqb_eq in Hid. exact Hid. }
  rewrite Hid. split; [reflexivity|]. split; [reflexivity|].
  exact (removeFirst_find oid (docs db) job Hfind).
Qed.

(** X11. Delete then read: in a collection whose keys are distinct, after a
    delete that succeeds, get-single-job for the same identifier answers
    404 "Job not found!". *)
Theorem deleteJob_then_getSingleJob
  (req : Request) (db db' : Collection) (res : Response) :
  deleteJob castObjectId req db = (db', Sent res) ->
  List.NoDup (map job_id (docs db)) ->
  getSingleJob castObjectId req db' =
    (db', Next (mkErrorHandler "Job not found!" (Some 404))).
Proof.
  rewrite deleteJob_cases.
  destruct (String.eqb _ _); [discriminate|].
  destruct (castObjectId _) as [oid|] eqn:Hcast; [|discriminate].
  destruct (List.find _ _) as [job|] eqn:Hfind; [|discriminate].
  intros H Hnd. injection H as <- _.
  assert (Hid : job_id job = oid).
  { apply find_some_in in Hfind. destruct Hfind as [_ Hid].
    unfold hasId in Hid. apply N.eqb_eq in Hid. exact Hid. }
  rewrite Hid. run_handler. rewrite Hcast. cbn [docs].
  assert (Hnone : List.find (hasId oid) (removeFirst oid (docs db)) = None).
  { apply find_none_iff. eapply List.Forall_impl; [|apply removeFirst_unique; exact Hnd].
    intros j Hj. unfold hasId. apply N.eqb_neq. exact Hj. }
  rewrite Hnone. reflexivity.
Qed.

(** X12. Create then delete: when no stored job has the key the collection
    hands out next, deleting the job an accepted create request returned
    gives back the documents the collection held before the create. *)
Theorem postJob_then_deleteJob
  (req reqD : Request) (db db' : Collection) (post : Job) :
  postJob schemaAccepts req db =
    (db', Sent (mkResponse 200 [] (PostJson true "Job posted successfully!" post))) ->
  Forall (fun j => job_id j <> nextId db) (docs db) ->
  role (user reqD) <> "Job Seeker" ->
  castObjectId (params_id reqD) = Some (job_id post) ->
  exists db'',
    deleteJob castObjectId reqD db' =
      (db'', Sent (mkResponse 200 [] (DeletedJson true "Job deleted successfully!")))
    /\ docs db'' = docs db.
Proof.
  intros Hsent Hfresh Hrole Hcast.
  apply postJob_sent in Hsent. cbn zeta in Hsent.
  destruct Hsent as (_ & _ & _ & _ & Hdb & Hres).
  injection Hres as Hpost. subst db' post. cbn [job_id] in Hcast.
  apply String.eqb_neq in Hrole.
  rewrite deleteJob_cases, Hrole, Hcast. cbn [docs nextId].
  rewrite (find_last (nextId db)); [|exact Hfresh|reflexivity].
  eexists. split; [reflexivity|]. cbn [docs job_id].
  apply removeFirst_last; [exact Hfresh | reflexivity].
Qed.

(** X13. Update then read: an update that succeeds returns a record with
    the requested key, keeps the keys of the collection and their order,
    and get-single-job for the same identifier then answers with the
    record the update returned. *)
Theorem updateJob_then_getSingleJob
  (req : Request) (db db' : Collection) (res : Response) :
  updateJob castObjectId schemaAccepts req db = (db', Sent res) ->
  exists post' : Job,
    res = mkResponse 200 [] (UpdatedJson true (Some post') "Job updated successfully!")
    /\ castObjectId (params_id req) = Some (job_id post')
    /\ map job_id (docs db') = map job_id (docs db)
    /\ nextId db' = nextId db
    /\ getSingleJob castObjectId req db' =
         (db', Sent (mkResponse 200 [] (JobJson true post'))).
Proof.
  rewrite updateJob_cases.
  destruct (String.eqb _ _); [discriminate|].
  destruct (castObjectId _) as [oid|] eqn:Hcast; [|discriminate].
  destruct (List.find _ _) as [j|] eqn:Hfind; [|discriminate].
  destruct (applyUpdate _ _ _) as [j'|] eqn:Happ; [|discriminate].
  destruct (schemaAccepts _); [|discriminate].
  intros H. injection H as <- <-.
  assert (Hid : job_id j' = oid).
  { rewrite (applyUpdate_keeps_key _ _ _ _ Happ).
    apply find_some_in in Hfind. destruct Hfind as [_ Hid].
    unfold hasId in Hid. apply N.eqb_eq in Hid. exact Hid. }
  destruct (replaceFirst_find oid j' (docs db) j Hfind Hid) as [Hget Hkeys].
  exists j'. split; [reflexivity|]. split; [rewrite Hid; reflexivity|].
  split; [exact Hkeys|]. split; [reflexivity|].
  run_handler. rewrite Hcast. cbn [docs]. rewrite Hget. reflexivity.
Qed.

(** X14. Update and delete write only when they answer 200: whenever either
    ends otherwise (an error or a thrown rejection handed to [next]), the
    collection is as it was. *)
Theorem update_delete_failure_writes_nothing
  (req : Request) (db : Collection) :
  ((forall res, snd (updateJob castObjectId schemaAccepts req db) <> Sent res) ->
     fst (updateJob castObjectId schemaAccepts req db) = db)
  /\ ((forall res, snd (deleteJob castObjectId req db) <> Sent res) ->
        fst (deleteJob castObjectId req db) = db).
Proof.
  split.
  - rewrite updateJob_cases.
    destruct (String.eqb _ _); [reflexivity|].
    destruct (castObjectId _); [|reflexivity].
    destruct (List.find _ _); [|reflexivity].
    destruct (applyUpdate _ _ _); [|reflexivity].
    destruct (schemaAccepts _); [|reflexivity].
    intros Hns. exfalso. eapply Hns. reflexivity.
  - rewrite deleteJob_cases.
    destruct (String.eqb _ _); [reflexivity|].
    destruct (castObjectId _); [|reflexivity].
    destruct (List.find _ _); [|reflexivity].
    intros Hns. exfalso. eapply Hns. reflexivity.
Qed.

End MoreHandlerProperties.

(** ** The further properties at concrete requests *)

Lemma postJob_missing_required_400_witness :
  requiredPresent (requestFields
    (mkRequest (employer 7) (<["title" := JsString ""]> (devBody fixed5000)) "")) = false
  /\ postJob typedSchema
       (mkRequest (employer 7) (<["title" := JsString ""]> (devBody fixed5000)) "")
       emptyDb
     = (emptyDb, Next (mkErrorHandler "Please provide full job details." (Some 400))).
Proof.
  split; [vm_compute; reflexivity|].
  apply (postJob_missing_required_400 typedSchema).
  - vm_compute. discriminate.
  - vm_compute. reflexivity.
Defined.

Lemma postJob_failure_writes_nothing_witness :
  oneJobDb = oneJobDb
  /\ (statusCode (mkErrorHandler "Job already exist!" None) = Some 400
      \/ (mkErrorHandler "Job already exist!" None
          = mkErrorHandler "Job already exist!" None
          /\ Exists (fun j => fields j = requestFields (devRequest 9 fixed5000))
               (docs oneJobDb))).
Proof.
  apply (postJob_failure_writes_nothing typedSchema (devRequest 9 fixed5000)
           oneJobDb oneJobDb (Next (mkErrorHandler "Job already exist!" None))).
  vm_compute. reflexivity.
Defined.

Lemma getMyJobs_exactly_own_witness :
  exists myJobs : list Job,
    getMyJobs (mkRequest (employer 9) ∅ "") twoJobDb
    = (twoJobDb, Sent (mkResponse 200 [] (MyJobsJson true myJobs)))
    /\ forall j, In j myJobs <-> In j (docs twoJobDb) /\ postedBy j = 9%N.
Proof.
  apply (getMyJobs_exactly_own (mkRequest (employer 9) ∅ "") twoJobDb).
  vm_compute. discriminate.
Defined.

Lemma update_delete_missing_job_400_witness :
  updateJob hexObjectId typedSchema (mkRequest (employer 9) ∅ key2) oneJobDb
  = (oneJobDb, Next (mkErrorHandler
       "Job Seeker not allowed to access this resource." (Some 400)))
  /\ deleteJob hexObjectId (mkRequest (employer 9) ∅ key2) oneJobDb
     = (oneJobDb, Next (mkErrorHandler "Opps Job not found!." (Some 400))).
Proof.
  apply (update_delete_missing_job_400 hexObjectId typedSchema
           (mkRequest (employer 9) ∅ key2) oneJobDb 2%N).
  - vm_compute. discriminate.
  - vm_compute. reflexivity.
  - constructor; [discriminate | constructor].
Defined.

Lemma update_delete_malformed_id_uncaught_witness :
  (exists t, updateJob hexObjectId typedSchema
               (mkRequest (employer 9) ∅ "not-a-key") oneJobDb
             = (oneJobDb, NextThrown t))
  /\ (exists t, deleteJob hexObjectId (mkRequest (employer 9) ∅ "not-a-key") oneJobDb
                = (oneJobDb, NextThrown t)).
Proof.
  apply (update_delete_malformed_id_uncaught hexObjectId typedSchema
           (mkRequest (employer 9) ∅ "not-a-key") oneJobDb).
  - vm_compute. discriminate.
  - vm_compute. reflexivity.
Defined.

Lemma postJob_repeat_is_duplicate_witness :
  postJob typedSchema (devRequest 9 fixed5000) oneJobDb
  = (oneJobDb, Next (mkErrorHandler "Job already exist!" None)).
Proof.
  apply (postJob_repeat_is_duplicate typedSchema
           (devRequest 7 fixed5000) (devRequest 9 fixed5000) emptyDb oneJobDb
           (mkResponse 200 [] (PostJson true "Job posted successfully!" devJob))).
  - vm_compute. reflexivity.
  - reflexivity.
  - vm_compute. discriminate.
Defined.

Lemma postJob_then_getSingleJob_witness :
  getSingleJob hexObjectId (mkRequest (jobSeeker 3) ∅ key1) oneJobDb
  = (oneJobDb, Sent (mkResponse 200 [] (JobJson true devJob))).
Proof.
  apply (postJob_then_getSingleJob hexObjectId typedSchema
           (devRequest 7 fixed5000) (mkRequest (jobSeeker 3) ∅ key1) emptyDb).
  - vm_compute. reflexivity.
  - constructor.
  - vm_compute. reflexivity.
Defined.

Lemma postJob_then_listed_witness :
  (exists jobs,
     getAllJobs (mkRequest (jobSeeker 3) ∅ "") oneJobDb
     = (oneJobDb, Sent (mkResponse 200 [] (JobsJson true jobs)))
     /\ In devJob jobs)
  /\ (exists myJobs,
        getMyJobs (devRequest 7 fixed5000) oneJobDb
        = (oneJobDb, Sent (mkResponse 200 [] (MyJobsJson true myJobs)))
        /\ In devJob myJobs).
Proof.
  apply (postJob_then_listed typedSchema
           (devRequest 7 fixed5000) (mkRequest (jobSeeker 3) ∅ "") emptyDb).
  vm_compute. reflexivity.
Defined.

Lemma deleteJob_removes_one_witness :
  exists oid, hexObjectId key1 = Some oid
    /\ nextId (mkCollection [opsJob] 3%N) = nextId twoJobDb
    /\ length (docs twoJobDb) = S (length (docs (mkCollection [opsJob] 3%N)))
    /\ (forall j, In j (docs twoJobDb) -> job_id j <> oid
          -> In j (docs (mkCollection [opsJob] 3%N)))
    /\ (forall j, In j (docs (mkCollection [opsJob] 3%N)) -> In j (docs twoJobDb)).
Proof.
  apply (deleteJob_removes_one hexObjectId (mkRequest (employer 7) ∅ key1) twoJobDb
           (mkCollection [opsJob] 3%N)
           (mkResponse 200 [] (DeletedJson true "Job deleted successfully!"))).
  vm_compute. reflexivity.
Defined.

Lemma deleteJob_then_getSingleJob_witness :
  getSingleJob hexObjectId (mkRequest (employer 7) ∅ key1) (mkCollection [opsJob] 3%N)
  = (mkCollection [opsJob] 3%N, Next (mkErrorHandler "Job not found!" (Some 404))).
Proof.
  apply (deleteJob_then_getSingleJob hexObjectId (mkRequest (employer 7) ∅ key1)
           twoJobDb (mkCollection [opsJob] 3%N)
           (mkResponse 200 [] (DeletedJson true "Job deleted successfully!"))).
  - vm_compute. reflexivity.
  - cbn. constructor.
    + intros [H | []]. discriminate H.
    + constructor; [intros [] | constructor].
Defined.

Lemma postJob_then_deleteJob_witness :
  exists db'',
    deleteJob hexObjectId (mkRequest (employer 9) ∅ key1) oneJobDb
    = (db'', Sent (mkResponse 200 [] (DeletedJson true "Job deleted successfully!")))
    /\ docs db'' = docs emptyDb.
Proof.
  apply (postJob_then_deleteJob hexObjectId typedSchema
           (devRequest 7 fixed5000) (mkRequest (employer 9) ∅ key1) emptyDb oneJobDb
           devJob).
  - vm_compute. reflexivity.
  - constructor.
  - vm_compute. discriminate.
  - vm_compute. reflexivity.
Defined.

Lemma updateJob_then_getSingleJob_witness :
  let req := mkRequest (employer 7) {[ "title" := JsString "Lead" ]} key1 in
  let db' := fst (updateJob hexObjectId typedSchema req oneJobDb) in
  exists post' : Job,
    mkResponse 200 []
      (UpdatedJson true
         (Some (mkJob 1%N
            (mkJobFields (JsString "Lead") (JsString "Build X") (JsString "Eng")
               (JsString "US") (JsString "NY") (JsString "Office")
               (JsNumber (Num 5000)) JsUndefined JsUndefined) 7%N false))
         "Job updated successfully!")
    = mkResponse 200 [] (UpdatedJson true (Some post') "Job updated successfully!")
    /\ hexObjectId (params_id req) = Some (job_id post')
    /\ map job_id (docs db') = map job_id (docs oneJobDb)
    /\ nextId db' = nextId oneJobDb
    /\ getSingleJob hexObjectId req db'
       = (db', Sent (mkResponse 200 [] (JobJson true post'))).
Proof.
  intros req db'.
  apply (updateJob_then_getSingleJob hexObjectId typedSchema req oneJobDb db').
  vm_compute. reflexivity.
Defined.

Lemma update_delete_failure_writes_nothing_witness :
  fst (updateJob hexObjectId typedSchema
         (mkRequest (employer 9) {[ "expired" := JsString "soon" ]} key1) oneJobDb)
  = oneJobDb
  /\ fst (deleteJob hexObjectId (mkRequest (employer 9) ∅ key2) oneJobDb) = oneJobDb.
Proof.
  split.
  - apply (proj1 (update_delete_failure_writes_nothing hexObjectId typedSchema
             (mkRequest (employer 9) {[ "expired" := JsString "soon" ]} key1) oneJobDb)).
    intros res. vm_compute. discriminate.
  - apply (proj2 (update_delete_failure_writes_nothing hexObjectId typedSchema
             (mkRequest (employer 9) ∅ key2) oneJobDb)).
    intros res. vm_compute. discriminate.
Defined.
